(** * wtfdi: scope-based dependency injection through frame locals

    A shallow embedding of [src/wtfdi.py].  The module stores one
    dictionary of dependencies in the locals of the frame that executes a
    [with context(...)] statement, under the hidden name [DEP_VAR], and a
    function wrapped by [with_context] reads that dictionary from the
    locals of its caller's frame.

    Python data is modelled as the code uses it:
    - a [dict[str, Any]] is a [gmap string Value];
    - the call stack is a list of frames, innermost first, and a frame
      object is referred to by its position in that list ([f_back] is the
      next position);
    - running code is a function from the interpreter state to an
      outcome: a returned value, a raised exception, or no outcome at all
      when a loop does not finish within the given number of iterations. *)

From stdpp Require Import gmap strings list fin_maps.

Set Default Proof Using "Type".
Set Warnings "-register-all".

(** ** The exception of lines 12-38 *)

Module DependencyNotFoundError.

(** Instance state (lines 27-30): the [args] set by
    [KeyError.__init__] and the three attributes.  [F] is the type of
    callables. *)
Record t (F : Type) := mk {
  args : list string;
  name : string;
  func : F;
  available : gset string
}.

Arguments mk {F}.
Arguments args {F}.
Arguments name {F}.
Arguments func {F}.
Arguments available {F}.

(** [__init__] (lines 15-30): [super().__init__(name)] stores [(name,)]
    in [args], then the three attributes are assigned. *)
Definition __init__ {F} (name : string) (func : F)
    (available : gset string) : t F :=
  {| args := [name]; name := name; func := func; available := available |}.

End DependencyNotFoundError.

(** ** Exception classes and annotations *)

(** Exception classes: the builtin chain above [KeyError], the class of
    line 12, and user classes deriving from [Exception]. *)
Inductive ExcClass :=
| BaseException_cls
| Exception_cls
| LookupError_cls
| KeyError_cls
| AttributeError_cls
| DependencyNotFoundError_cls
| User_cls (qualname : string).

Inductive PyExc (F : Type) : Type :=
| ExcDependencyNotFound (e : DependencyNotFoundError.t F)
| ExcKeyError (key : string)
| ExcAttributeError (attr : string)
| ExcUser (qualname : string) (message : string).

Arguments ExcDependencyNotFound {F}.
Arguments ExcKeyError {F}.
Arguments ExcAttributeError {F}.
Arguments ExcUser {F}.

(** An annotation object, as far as line 80 observes it:
    [getattr(anno, "__name__", None)]. *)
Record Anno := mkAnno { anno_name : option string }.

(** ** Values, frames and the interpreter state *)

Section Model.

Context {Value World : Type}.

(** [frame.f_locals].  Only dictionary-valued locals are tracked: the code
    reads and writes a single local, [DEP_VAR], and always stores a
    [dict[str, Any]] in it. *)
Record Frame := mkFrame { f_locals : gmap string (gmap string Value) }.

(** The call stack (innermost frame first) and everything else user code
    can change. *)
Record State := mkState { stack : list Frame; world : World }.

(** What running a piece of code leads to. *)
Inductive Outcome (E A : Type) : Type :=
| Returns (a : A) (st : State)
| Raises (e : E) (st : State)
| Diverges.

(** ** Callables *)

(** A callable object: its name, its [__annotations__] attribute ([None]
    when the attribute is absent or holds [None]) and what calling it
    does once its frame has been pushed. *)
Inductive Callable : Type := mkCallable {
  c_name : string;
  c_annotations : option (list (string * Anno));
  c_code : list Value -> gmap string Value -> State ->
           Outcome (PyExc Callable) Value
}.

Arguments Returns {E A}.
Arguments Raises {E A}.
Arguments Diverges {E A}.

Definition Exc : Type := PyExc Callable.

(** ** Code as state transformers *)

Definition M (A : Type) : Type := State -> Outcome Exc A.

Definition ret {A} (a : A) : M A := fun st => Returns a st.

Definition raise {A} (e : Exc) : M A := fun st => Raises e st.

Definition bind {A B} (m : M A) (k : A -> M B) : M B := fun st =>
  match m st with
  | Returns a st' => k a st'
  | Raises e st' => Raises e st'
  | Diverges => Diverges
  end.

(** [try: body finally: fin].  An exception raised by [fin] replaces
    whatever [body] produced. *)
Definition try_finally {A} (body : M A) (fin : M unit) : M A := fun st =>
  match body st with
  | Returns a st' =>
      match fin st' with
      | Returns _ st'' => Returns a st''
      | Raises e st'' => Raises e st''
      | Diverges => Diverges
      end
  | Raises e st' =>
      match fin st' with
      | Returns _ st'' => Raises e st''
      | Raises e' st'' => Raises e' st''
      | Diverges => Diverges
      end
  | Diverges => Diverges
  end.

(** ** The exception class of line 12 *)

#[export] Instance ExcClass_eq_dec : EqDecision ExcClass.
Proof. solve_decision. Defined.

(** The declared base of each class; line 12 is
    [class DependencyNotFoundError(KeyError)]. *)
Definition base (c : ExcClass) : option ExcClass :=
  match c with
  | BaseException_cls => None
  | Exception_cls => Some BaseException_cls
  | LookupError_cls => Some Exception_cls
  | KeyError_cls => Some LookupError_cls
  | AttributeError_cls => Some Exception_cls
  | DependencyNotFoundError_cls => Some KeyError_cls
  | User_cls _ => Some Exception_cls
  end.

(** The linearised ancestors of a class; the longest chain has five
    classes. *)
Fixpoint mro_from (n : nat) (c : ExcClass) : list ExcClass :=
  c :: match n, base c with
       | S n', Some b => mro_from n' b
       | _, _ => []
       end.

Definition mro (c : ExcClass) : list ExcClass := mro_from 4 c.

Definition issubclass (c d : ExcClass) : bool := bool_decide (d ∈ mro c).

Definition class_of {F} (e : PyExc F) : ExcClass :=
  match e with
  | ExcDependencyNotFound _ => DependencyNotFoundError_cls
  | ExcKeyError _ => KeyError_cls
  | ExcAttributeError _ => AttributeError_cls
  | ExcUser q _ => User_cls q
  end.

(** [try: body except cls as e: handler(e)]. *)
Definition try_except {A} (body : M A) (cls : ExcClass)
    (handler : Exc -> M A) : M A := fun st =>
  match body st with
  | Raises e st' =>
      if issubclass (class_of e) cls then handler e st' else Raises e st'
  | o => o
  end.

(** ** Frames *)

Definition push_frame (st : State) : State :=
  {| stack := mkFrame ∅ :: stack st; world := world st |}.

Definition pop_frame (st : State) : State :=
  {| stack := tail (stack st); world := world st |}.

(** Runs [m] in [n] fresh frames above the current one and drops them
    when it is done. *)
Definition in_frames {A} (n : nat) (m : M A) : M A := fun st =>
  match m (Nat.iter n push_frame st) with
  | Returns a st' => Returns a (Nat.iter n pop_frame st')
  | Raises e st' => Raises e (Nat.iter n pop_frame st')
  | Diverges => Diverges
  end.

(** Calling a callable: a frame is pushed for the callee, its code runs,
    and the frame is dropped whether the code returns or raises. *)
Definition call (f : Callable) (args : list Value)
    (kwargs : gmap string Value) : M Value :=
  in_frames 1 (c_code f args kwargs).

(** [inspect.currentframe()]: the executing frame is at position 0. *)
Definition inspect_currentframe : nat := 0.

(** [frame.f_back]: the next position, [None] for the outermost frame. *)
Definition get_f_back (st : State) (frame : nat) : option nat :=
  match stack st !! S frame with
  | Some _ => Some (S frame)
  | None => None
  end.

(** [frame.f_locals.get(key)]. *)
Definition get_local (st : State) (frame : nat) (key : string)
    : option (gmap string Value) :=
  fr ← stack st !! frame; f_locals fr !! key.

(** [frame.f_locals[key] = value]. *)
Definition set_local (st : State) (frame : nat) (key : string)
    (value : gmap string Value) : State :=
  {| stack := alter (fun fr => mkFrame (<[key := value]> (f_locals fr)))
                    frame (stack st);
     world := world st |}.

(** The state after [frame.f_locals.pop(key)] has removed the key. *)
Definition del_local (st : State) (frame : nat) (key : string) : State :=
  {| stack := alter (fun fr => mkFrame (delete key (f_locals fr)))
                    frame (stack st);
     world := world st |}.

(** ** The module *)

(** Line 8. *)
Definition DEP_VAR : string := "__wtfdi_deps__".

(** Line 9: [type Depends[T] = Annotated[T, "Depends"]] creates a type
    alias object whose [__name__] is ["Depends"]. *)
Definition Depends : Anno := mkAnno (Some "Depends").

(** Python's [a | b] on dictionaries: the entries of [b] win. *)
Definition dict_or (a b : gmap string Value) : gmap string Value := b ∪ a.

(** [functools.reduce(function, iterable, initial)]. *)
Definition reduce {A B} (f : A -> B -> A) (l : list B) (init : A) : A :=
  foldl f init l.

(** The loop of lines 43-45.  Each iteration tests [frame.f_back] and,
    when the frame holds [DEP_VAR], appends that dictionary; the body
    never assigns [frame].  [None] means the loop is still running after
    [fuel] tests of its condition. *)
Fixpoint _build_dependencies_while (fuel : nat) (st : State) (frame : nat)
    (dependencies : list (gmap string Value))
    : option (list (gmap string Value)) :=
  match fuel with
  | O => None
  | S fuel' =>
      match get_f_back st frame with
      | None => Some dependencies
      | Some _ =>
          _build_dependencies_while fuel' st frame
            (match get_local st frame DEP_VAR with
             | Some d => dependencies ++ [d]
             | None => dependencies
             end)
      end
  end.

(** Lines 41-46. *)
Definition _build_dependencies (fuel : nat) (frame : nat)
    : M (gmap string Value) := fun st =>
  match _build_dependencies_while fuel st frame [] with
  | None => Diverges
  | Some dependencies => Returns (reduce dict_or dependencies ∅) st
  end.

(** Lines 53-55, the generator body of [context] up to its [yield].  It
    runs in the generator's frame, which [__enter__] of the
    [contextmanager] object called. *)
Definition context_enter (fuel : nat) (deps : gmap string Value)
    : M unit := fun st =>
  match get_f_back st inspect_currentframe with
  | None => Raises (ExcAttributeError "f_back") st
  | Some enter_frame =>
      match get_f_back st enter_frame with
      | None => Raises (ExcAttributeError "f_back") st
      | Some frame =>
          bind (_build_dependencies fuel frame) (fun outer_dependencies st' =>
            Returns tt
              (set_local st' frame DEP_VAR (dict_or outer_dependencies deps)))
            st
      end
  end.

(** Line 59, the [finally] clause, run when [__exit__] resumes the
    generator.  [frame] is the generator's local of line 53; the [with]
    statement calls [__enter__] and [__exit__] from the same frame, so it
    is again two frames behind the generator's. *)
Definition context_exit : M unit := fun st =>
  let frame := 2 in
  match get_local st frame DEP_VAR with
  | None => Raises (ExcKeyError DEP_VAR) st
  | Some _ => Returns tt (del_local st frame DEP_VAR)
  end.

(** [with context(...): body] (lines 49-59).  [contextmanager] runs
    the generator up to [yield] on entry and resumes it on exit, normal
    or exceptional, each time two frames above the [with] statement. *)
Definition context__enter__ (fuel : nat) (deps : gmap string Value)
    : M unit :=
  in_frames 2 (context_enter fuel deps).

Definition context__exit__ : M unit := in_frames 2 context_exit.

Definition context {A} (fuel : nat) (deps : gmap string Value)
    (body : M A) : M A :=
  bind (context__enter__ fuel deps) (fun _ =>
    try_finally body context__exit__).

(** Lines 76-81. *)
Definition _resolve_dependencies (func : Callable) : list string :=
  (filter (fun item : string * Anno => anno_name item.2 = Some "Depends")
          (default [] (c_annotations func))).*1.

(** The loop of lines 67-70 over the remaining names [deps]: the first
    name missing from [source] ends it with the exception of line 69. *)
Fixpoint _wrapper_for (func : Callable) (source : gmap string Value)
    (deps : list string) (kwargs : gmap string Value)
    : Exc + gmap string Value :=
  match deps with
  | [] => inr kwargs
  | dep :: deps' =>
      match source !! dep with
      | None =>
          inl (ExcDependencyNotFound
                 (DependencyNotFoundError.__init__ dep func (dom source)))
      | Some v => _wrapper_for func source deps' (<[dep := v]> kwargs)
      end
  end.

(** Lines 64-71.  The code runs in the wrapper's own frame. *)
Definition _wrapper (func : Callable) (args : list Value)
    (kwargs : gmap string Value) : M Value := fun st =>
  match get_f_back st inspect_currentframe with
  | None => Raises (ExcAttributeError "f_locals") st
  | Some frame =>
      let source := default ∅ (get_local st frame DEP_VAR) in
      match _wrapper_for func source (_resolve_dependencies func) kwargs with
      | inl e => Raises e st
      | inr kwargs' => call func args kwargs' st
      end
  end.

(** Lines 62-73.  The returned function is [_wrapper]; its only
    annotation is its return type, the type variable [T]. *)
Definition with_context (func : Callable) : Callable :=
  mkCallable "_wrapper" (Some [("return", mkAnno (Some "T"))])
             (_wrapper func).

(** The dictionary a wrapped function reads when it is called from the
    executing frame: [frame.f_locals.get(DEP_VAR, {})] of line 66. *)
Definition effective_context (st : State) : gmap string Value :=
  default ∅ (get_local st inspect_currentframe DEP_VAR).

(** ** Function definitions

    A [def] statement creates a function whose [__annotations__] holds
    the annotated parameters and then the return annotation under the
    key ["return"].  CPython lists the ordinary (positional-or-keyword)
    parameters first, then the positional-only ones, then the starred
    parameter, the keyword-only ones and the double-starred one. *)
Record FunctionDef := mkFunctionDef {
  def_name : string;
  def_posonlyargs : list (string * option Anno);
  def_params : list (string * option Anno);
  def_vararg : option (string * option Anno);
  def_kwonlyargs : list (string * option Anno);
  def_kwarg : option (string * option Anno);
  def_returns : option Anno;
  def_code : list Value -> gmap string Value -> M Value
}.

(** The parameters in the order in which [__annotations__] lists
    them. *)
Definition annotation_order (d : FunctionDef)
    : list (string * option Anno) :=
  def_params d ++ def_posonlyargs d ++ option_list (def_vararg d)
  ++ def_kwonlyargs d ++ option_list (def_kwarg d).

Definition def_annotations (d : FunctionDef) : list (string * Anno) :=
  omap (fun p : string * option Anno => pair p.1 <$> p.2) (annotation_order d)
  ++ match def_returns d with
     | Some r => [("return", r)]
     | None => []
     end.

Definition def_function (d : FunctionDef) : Callable :=
  mkCallable (def_name d) (Some (def_annotations d)) (def_code d).

(** The parameters of a definition, of any kind, that carry the marker,
    in the order of [annotation_order]. *)
Definition marked_parameters (d : FunctionDef) : list string :=
  (filter (fun p : string * option Anno =>
             p.2 ≫= anno_name = Some "Depends") (annotation_order d)).*1.

(** A callable whose behaviour does not depend on the frame that calls
    it: called from one more frame, it returns or raises the same and
    leaves the same state. *)
Definition frame_independent (f : Callable) : Prop :=
  ∀ args kwargs st, in_frames 1 (call f args kwargs) st = call f args kwargs st.

(** Code that neither reads nor changes the call stack: what it
    returns or raises, and what it does to the rest of the state, is a
    function of its arguments and of that rest. *)
Definition stack_oblivious
    (code : list Value -> gmap string Value -> M Value) : Prop :=
  ∃ g : list Value -> gmap string Value -> World -> (Value + Exc) * World,
    ∀ args kwargs st,
      code args kwargs st =
        match g args kwargs (world st) with
        | (inl v, w') => Returns v (mkState (stack st) w')
        | (inr e, w') => Raises e (mkState (stack st) w')
        end.

(** ** Calls between a scope and a wrapped call *)

(** An unwrapped function defined in Python ([def] or [lambda]) that
    knows nothing of the module: it has no annotations, its body is
    [body], and calling it pushes a frame of its own. *)
Definition intermediate (body : M Value) : Callable :=
  mkCallable "intermediate" None (fun _ _ => body).

(** What an intermediate call is made of: a function defined in Python,
    which runs in its own frame, or a callable implemented in C ([map],
    [functools.partial], the [key] of [sorted]), which calls on without
    any Python frame of its own, so that the frame behind its callee is
    the frame that called it. *)
Inductive Intermediate :=
| PythonFunction
| BuiltinCallable.

#[export] Instance Intermediate_eq_dec : EqDecision Intermediate.
Proof. solve_decision. Defined.

(** [m] reached through a chain of intermediate calls, outermost
    first. *)
Fixpoint through_calls (chain : list Intermediate) (m : M Value) : M Value :=
  match chain with
  | [] => m
  | PythonFunction :: chain' =>
      call (intermediate (through_calls chain' m)) [] ∅
  | BuiltinCallable :: chain' => through_calls chain' m
  end.

(** ** Sample functions *)

(** A function in the shape of the one of lines 84-86: an ordinary
    parameter and a parameter [logger] marked [Depends].  It returns the
    logger it was given. *)
Definition greet_def : FunctionDef :=
  {| def_name := "greet";
     def_posonlyargs := [];
     def_params := [("to_who", Some (mkAnno (Some "str")));
                    ("logger", Some Depends)];
     def_vararg := None;
     def_kwonlyargs := [];
     def_kwarg := None;
     def_returns := None;
     def_code := fun args kwargs =>
       match args, kwargs !! "logger" with
       | [_], Some logger => ret logger
       | _, _ => raise (ExcUser "TypeError" "greet() got wrong arguments")
       end |}.

Definition greet : Callable := def_function greet_def.


(** A function without parameters whose return annotation is
    [Depends]; it returns [v]. *)
Definition returns_Depends_def (v : Value) : FunctionDef :=
  {| def_name := "make";
     def_posonlyargs := [];
     def_params := [];
     def_vararg := None;
     def_kwonlyargs := [];
     def_kwarg := None;
     def_returns := Some Depends;
     def_code := fun _ _ => ret v |}.


(** [def pair(a: Depends, /, c: Depends)]: a marked positional-only
    parameter before a marked ordinary one; it returns what it was given
    for [c]. *)
Definition posonly_def : FunctionDef :=
  {| def_name := "pair";
     def_posonlyargs := [("a", Some Depends)];
     def_params := [("c", Some Depends)];
     def_vararg := None;
     def_kwonlyargs := [];
     def_kwarg := None;
     def_returns := None;
     def_code := fun _ kwargs =>
       match kwargs !! "c" with
       | Some v => ret v
       | None => raise (ExcUser "TypeError" "pair() got wrong arguments")
       end |}.

(** ** The resolution loop *)

Lemma pop_push_frame st : pop_frame (push_frame st) = st.
Proof. by destruct st. Qed.

(** Every name present: the loop ends with the caller's keyword
    arguments updated at exactly the resolved names. *)
Lemma _wrapper_for_present func source deps kwargs :
  (∀ d, d ∈ deps → d ∈ dom source) →
  ∃ kwargs',
    _wrapper_for func source deps kwargs = inr kwargs' ∧
    (∀ d, d ∈ deps → kwargs' !! d = source !! d) ∧
    (∀ k, k ∉ deps → kwargs' !! k = kwargs !! k).
Proof.
  revert kwargs. induction deps as [|dep deps IH]; intros kwargs Hall; simpl.
  - exists kwargs. split_and!; [done | | done].
    intros d Hd. by apply elem_of_nil in Hd.
  - assert (is_Some (source !! dep)) as [v Hv].
    { apply elem_of_dom, Hall. left. }
    rewrite Hv.
    destruct (IH (<[dep := v]> kwargs)) as (kw & Hkw & Hin & Hout).
    { intros d Hd. apply Hall. by right. }
    exists kw. split_and!; [done | |].
    + intros d Hd. destruct (decide (d ∈ deps)) as [Hd'|Hd']; [by apply Hin|].
      apply elem_of_cons in Hd as [->|Hd]; [|done].
      by rewrite (Hout dep Hd'), lookup_insert_eq.
    + intros k Hk. apply not_elem_of_cons in Hk as [Hne Hk].
      by rewrite (Hout k Hk), lookup_insert_ne.
Qed.

(** A first missing name: the loop stops there, whatever follows it. *)
Lemma _wrapper_for_missing func source pre dep post kwargs :
  (∀ d, d ∈ pre → d ∈ dom source) →
  dep ∉ dom source →
  _wrapper_for func source (pre ++ dep :: post) kwargs =
    inl (ExcDependencyNotFound
           (DependencyNotFoundError.__init__ dep func (dom source))).
Proof.
  revert kwargs. induction pre as [|d pre IH]; intros kwargs Hpre Hdep; simpl.
  - apply not_elem_of_dom in Hdep. by rewrite Hdep.
  - assert (is_Some (source !! d)) as [v Hv].
    { apply elem_of_dom, Hpre. left. }
    rewrite Hv. apply IH; [|done]. intros d' Hd'. apply Hpre. by right.
Qed.

(** Among names of which one is missing there is a first missing one. *)
Lemma first_missing (source : gmap string Value) (deps : list string) :
  (∃ d, d ∈ deps ∧ d ∉ dom source) →
  ∃ pre dep post,
    deps = pre ++ dep :: post ∧
    (∀ d, d ∈ pre → d ∈ dom source) ∧ dep ∉ dom source.
Proof.
  induction deps as [|d deps IH]; intros (x & Hx & Hmiss).
  - by apply elem_of_nil in Hx.
  - destruct (decide (d ∈ dom source)) as [Hd|Hd].
    + destruct IH as (pre & dep & post & -> & Hpre & Hdep).
      { apply elem_of_cons in Hx as [->|Hx]; [done | by exists x]. }
      exists (d :: pre), dep, post. split_and!; [done | | done].
      intros d' [->|Hd']%elem_of_cons; [done | by apply Hpre].
    + exists [], d, deps. split_and!; [done | | done].
      intros d' Hd'. by apply elem_of_nil in Hd'.
Qed.

(** The loop either raises the exception of line 69 or completes. *)
Lemma _wrapper_for_cases func source deps kwargs :
  (∃ dep, dep ∈ deps ∧ (dep ∉ dom source) ∧
     _wrapper_for func source deps kwargs =
       inl (ExcDependencyNotFound
              (DependencyNotFoundError.__init__ dep func (dom source)))) ∨
  ((∀ d, d ∈ deps → d ∈ dom source) ∧
   ∃ kwargs',
     _wrapper_for func source deps kwargs = inr kwargs' ∧
     (∀ d, d ∈ deps → kwargs' !! d = source !! d) ∧
     (∀ k, k ∉ deps → kwargs' !! k = kwargs !! k)).
Proof.
  destruct (decide (Forall (λ d, d ∈ dom source) deps)) as [Hall|Hnot].
  - right. rewrite Forall_forall in Hall. split; [done|].
    by apply _wrapper_for_present.
  - left. apply not_Forall_Exists, Exists_exists in Hnot; [|apply _].
    destruct (first_missing source deps) as (pre & dep & post & -> & Hpre & Hdep).
    { destruct Hnot as (d & ? & ?). by exists d. }
    exists dep. split_and!; [| done |].
    + apply elem_of_app. right. left.
    + by apply _wrapper_for_missing.
Qed.

(** A completed loop has found every name and bound it. *)
Lemma _wrapper_for_inr func source deps kwargs kwargs' :
  _wrapper_for func source deps kwargs = inr kwargs' →
  ∀ d, d ∈ deps → d ∈ dom source ∧ kwargs' !! d = source !! d.
Proof.
  intros Hloop.
  destruct (_wrapper_for_cases func source deps kwargs)
    as [(dep & _ & _ & Hraise)|(Hall & kw & Hkw & Hres & _)].
  - congruence.
  - assert (kw = kwargs') as -> by congruence. auto.
Qed.

(** ** A wrapped call, seen from the caller

    Calling [with_context func] from a frame [caller] pushes the
    wrapper's frame, runs the loop against the dictionary held by
    [caller] and only then calls [func] from the wrapper's frame. *)
Lemma call_with_context func args kwargs caller back w :
  call (with_context func) args kwargs (mkState (caller :: back) w) =
    match _wrapper_for func (default ∅ (f_locals caller !! DEP_VAR))
            (_resolve_dependencies func) kwargs with
    | inl e => Raises e (mkState (caller :: back) w)
    | inr kwargs' =>
        in_frames 1 (call func args kwargs') (mkState (caller :: back) w)
    end.
Proof.
  unfold call at 1, in_frames at 1. simpl. unfold _wrapper. simpl.
  unfold get_local. simpl.
  by destruct (_wrapper_for _ _ _ _).
Qed.

(** ** Failed resolution *)

(** C3.  When some dependency name of [func] is missing from the
    dictionary the wrapper reads, the wrapped call raises
    [DependencyNotFoundError] built from the first missing name [dep],
    from [func] itself and from the keys of that dictionary (no keys at
    all when the calling frame holds no [DEP_VAR]).  The state is the
    caller's, untouched, whatever the code of [func] would do: [func] is
    not entered.  Nothing is assumed of the names after [dep]: they are
    not looked up. *)
Theorem C3_missing_dependency_raises_before_call
    func args kwargs caller back w :
  let source := default ∅ (f_locals caller !! DEP_VAR) in
  let st := mkState (caller :: back) w in
  (∃ d, d ∈ _resolve_dependencies func ∧ d ∉ dom source) →
  ∃ pre dep post,
    _resolve_dependencies func = pre ++ dep :: post ∧
    (∀ d, d ∈ pre → d ∈ dom source) ∧
    (dep ∉ dom source) ∧
    call (with_context func) args kwargs st =
      Raises (ExcDependencyNotFound
                {| DependencyNotFoundError.args := [dep];
                   DependencyNotFoundError.name := dep;
                   DependencyNotFoundError.func := func;
                   DependencyNotFoundError.available := dom source |}) st ∧
    (f_locals caller !! DEP_VAR = None → dom source = ∅).
Proof.
  intros source st Hmiss.
  destruct (first_missing source _ Hmiss) as (pre & dep & post & Hdeps & Hpre & Hdep).
  exists pre, dep, post. split_and!; [done | done | done | |].
  - unfold st. rewrite call_with_context. fold source. rewrite Hdeps.
    by rewrite (_wrapper_for_missing func source pre dep post kwargs Hpre Hdep).
  - intros Hnone. unfold source. rewrite Hnone. simpl. apply dom_empty_L.
Qed.

(** ** Resolution as a function of the context *)

(** C7.  Two invocations of the same wrapped function with the same
    arguments, from any two states whose executing frames give the same
    effective context, resolve alike: both raise the same exception
    without changing their state, or both call [func] with the same
    injected keyword arguments.  The rest of the stack and of the state
    plays no part. *)
Theorem C7_resolution_deterministic
    func args kwargs caller1 back1 w1 caller2 back2 w2 :
  let st1 := mkState (caller1 :: back1) w1 in
  let st2 := mkState (caller2 :: back2) w2 in
  effective_context st1 = effective_context st2 →
  (∃ e,
     call (with_context func) args kwargs st1 = Raises e st1 ∧
     call (with_context func) args kwargs st2 = Raises e st2) ∨
  (∃ kwargs',
     call (with_context func) args kwargs st1 =
       in_frames 1 (call func args kwargs') st1 ∧
     call (with_context func) args kwargs st2 =
       in_frames 1 (call func args kwargs') st2).
Proof.
  intros st1 st2 Hctx. unfold st1, st2 in *.
  unfold effective_context, get_local in Hctx. simpl in Hctx.
  rewrite !call_with_context, Hctx.
  destruct (_wrapper_for _ _ _ _) as [e|kwargs'].
  - left. by exists e.
  - right. by exists kwargs'.
Qed.

(** ** Injection over explicit keyword arguments *)

(** C8.  Let [dep] be a dependency name of [func] that the context binds
    to [v] while the caller passes [dep=explicit].  Then the wrapped call
    either fails on some other, missing dependency, or calls [func] with
    keyword arguments in which [dep] is [v]: the caller's value is
    overwritten (line 70), and the keyword arguments that are not
    dependency names are passed as given. *)
Theorem C8_injected_value_overrides_explicit_kwarg
    func args kwargs caller back w dep v explicit :
  let source := default ∅ (f_locals caller !! DEP_VAR) in
  let st := mkState (caller :: back) w in
  dep ∈ _resolve_dependencies func →
  source !! dep = Some v →
  kwargs !! dep = Some explicit →
  (∃ other,
     other ∈ _resolve_dependencies func ∧ other ≠ dep ∧
     (other ∉ dom source) ∧
     call (with_context func) args kwargs st =
       Raises (ExcDependencyNotFound
                 (DependencyNotFoundError.__init__ other func (dom source)))
              st) ∨
  (∃ kwargs',
     call (with_context func) args kwargs st =
       in_frames 1 (call func args kwargs') st ∧
     kwargs' !! dep = Some v ∧
     (∀ k, k ∉ _resolve_dependencies func → kwargs' !! k = kwargs !! k)).
Proof.
  intros source st Hdep Hv Hexplicit. unfold st.
  rewrite call_with_context. fold source.
  destruct (_wrapper_for_cases func source (_resolve_dependencies func) kwargs)
    as [(other & Hin & Hmiss & ->)|(_ & kwargs' & -> & Hres & Hrest)].
  - left. exists other. split_and!; [done | | done | done].
    intros ->. apply Hmiss, elem_of_dom. by exists v.
  - right. exists kwargs'. split_and!; [done | | done].
    by rewrite (Hres dep Hdep).
Qed.

(** ** The exception as a [KeyError] *)

Lemma mro_DependencyNotFoundError :
  mro DependencyNotFoundError_cls =
    [DependencyNotFoundError_cls; KeyError_cls; LookupError_cls;
     Exception_cls; BaseException_cls].
Proof. reflexivity. Qed.

(** C9.  [DependencyNotFoundError] derives from [KeyError], so an
    [except KeyError] clause around a wrapped call whose resolution fails
    catches the failure.  The handler receives the exception exactly as
    line 69 constructed it: [args] is the missing name alone, and [name],
    [func] and [available] hold the constructor's three arguments. *)
Theorem C9_resolution_failure_is_caught_as_KeyError
    func args kwargs caller back w (handler : Exc → M Value) :
  let source := default ∅ (f_locals caller !! DEP_VAR) in
  let st := mkState (caller :: back) w in
  (∃ d, d ∈ _resolve_dependencies func ∧ d ∉ dom source) →
  base DependencyNotFoundError_cls = Some KeyError_cls ∧
  issubclass DependencyNotFoundError_cls KeyError_cls = true ∧
  ∃ e : DependencyNotFoundError.t Callable,
    e = DependencyNotFoundError.__init__
          (DependencyNotFoundError.name e) func (dom source) ∧
    DependencyNotFoundError.name e ∈ _resolve_dependencies func ∧
    (DependencyNotFoundError.name e ∉ dom source) ∧
    DependencyNotFoundError.args e = [DependencyNotFoundError.name e] ∧
    DependencyNotFoundError.func e = func ∧
    DependencyNotFoundError.available e = dom source ∧
    try_except (call (with_context func) args kwargs) KeyError_cls handler st =
      handler (ExcDependencyNotFound e) st.
Proof.
  intros source st Hmiss. split_and!; [done | done |].
  destruct (first_missing source _ Hmiss)
    as (pre & dep & post & Hdeps & Hpre & Hdep).
  exists (DependencyNotFoundError.__init__ dep func (dom source)).
  split_and!; try done.
  - simpl. rewrite Hdeps. apply elem_of_app. right. left.
  - unfold try_except, st. rewrite call_with_context. fold source.
    rewrite Hdeps.
    by rewrite (_wrapper_for_missing func source pre dep post kwargs Hpre Hdep).
Qed.

(** ** Which names are dependencies *)

Lemma elem_of__resolve_dependencies func n :
  n ∈ _resolve_dependencies func ↔
  ∃ anno, (n, anno) ∈ default [] (c_annotations func) ∧
          anno_name anno = Some "Depends".
Proof.
  unfold _resolve_dependencies. rewrite list_elem_of_fmap. split.
  - intros ([n' anno] & -> & Hin). apply list_elem_of_filter in Hin as [Hname Hin].
    by exists anno.
  - intros (anno & Hin & Hname). exists (n, anno). split; [done|].
    by apply list_elem_of_filter.
Qed.

(** The dependencies of a defined function: its marked parameters, in
    order, then ["return"] when the return annotation is a marker. *)
Lemma _resolve_dependencies_def d :
  _resolve_dependencies (def_function d) =
    marked_parameters d ++
    match def_returns d with
    | Some r => if decide (anno_name r = Some "Depends") then ["return"] else []
    | None => []
    end.
Proof.
  unfold _resolve_dependencies, marked_parameters, def_function, def_annotations.
  simpl. rewrite filter_app, fmap_app. f_equal.
  - induction (annotation_order d) as [|[p [a|]] params IH]; simpl; [done | |].
    + rewrite !filter_cons. simpl.
      destruct (decide (anno_name a = Some "Depends")); simpl;
        [f_equal|]; exact IH.
    + rewrite filter_cons. simpl. exact IH.
  - destruct (def_returns d) as [r|]; [|done].
    rewrite filter_cons. simpl. by case_decide.
Qed.

(** C10.  The dependencies of a callable are exactly the keys of its
    [__annotations__] whose annotation object has [__name__] equal to
    ["Depends"]; the key ["return"] is not set apart.  So a function
    whose return type is declared as the [Depends] alias has ["return"]
    among its dependencies, and every wrapped call of it made where the
    context does not bind ["return"] raises [DependencyNotFoundError]
    without entering the function, while a call that goes through passes
    the context's value for ["return"] as a keyword argument. *)
Theorem C10_return_annotation_is_a_dependency d args kwargs caller back w :
  let func := def_function d in
  let source := default ∅ (f_locals caller !! DEP_VAR) in
  let st := mkState (caller :: back) w in
  def_returns d = Some Depends →
  (∀ n, n ∈ _resolve_dependencies func ↔
        ∃ anno, (n, anno) ∈ def_annotations d ∧
                anno_name anno = Some "Depends") ∧
  "return" ∈ _resolve_dependencies func ∧
  ("return" ∉ dom source →
   ∃ dep, (dep ∉ dom source) ∧
     call (with_context func) args kwargs st =
       Raises (ExcDependencyNotFound
                 (DependencyNotFoundError.__init__ dep func (dom source)))
              st) ∧
  (∀ kwargs',
     _wrapper_for func source (_resolve_dependencies func) kwargs = inr kwargs' →
     call (with_context func) args kwargs st =
       in_frames 1 (call func args kwargs') st ∧
     kwargs' !! "return" = source !! "return").
Proof.
  intros func source st Hret.
  assert ("return" ∈ _resolve_dependencies func) as Hin.
  { unfold func. rewrite _resolve_dependencies_def, Hret. simpl.
    apply elem_of_app. right. left. }
  split_and!; [| done | |].
  - intros n. apply elem_of__resolve_dependencies.
  - intros Hmiss. unfold st. rewrite call_with_context. fold source.
    destruct (_wrapper_for_cases func source (_resolve_dependencies func) kwargs)
      as [(dep & _ & Hdep & ->)|(Hall & _)].
    + by exists dep.
    + destruct Hmiss. by apply Hall.
  - intros kwargs' Hloop. unfold st. rewrite call_with_context. fold source.
    rewrite Hloop. split; [done|].
    by apply (_wrapper_for_inr _ _ _ _ _ Hloop).
Qed.

(** ** Functions without dependencies *)

(** With no dependency name the loop leaves the keyword arguments alone
    and the wrapper is the call of line 71. *)
Lemma call_with_context_no_dependency func args kwargs caller back w :
  _resolve_dependencies func = [] →
  call (with_context func) args kwargs (mkState (caller :: back) w) =
    in_frames 1 (call func args kwargs) (mkState (caller :: back) w).
Proof. intros Hnone. by rewrite call_with_context, Hnone. Qed.

(** A callable whose code leaves the call stack alone does not depend
    on the frame that calls it. *)
Lemma stack_oblivious_frame_independent f :
  stack_oblivious (c_code f) → frame_independent f.
Proof.
  intros [g Hg] args kwargs [frames w].
  unfold in_frames, call, in_frames. simpl. rewrite !Hg. simpl.
  by destruct (g args kwargs w) as [[v|e] w'].
Qed.


(** ** What lies between a scope and a wrapped call *)

Lemma in_frames_1_raises {A} (m : M A) e st :
  m (push_frame st) = Raises e (push_frame st) →
  in_frames 1 m st = Raises e st.
Proof.
  intros Hm. unfold in_frames. simpl. rewrite Hm.
  by rewrite pop_push_frame.
Qed.

(** Called from a frame that holds no [DEP_VAR], a wrapped function with
    a dependency fails on its first one, whatever the rest of the stack
    holds. *)
Lemma call_with_context_from_fresh_frame func args kwargs dep rest st :
  _resolve_dependencies func = dep :: rest →
  call (with_context func) args kwargs (push_frame st) =
    Raises (ExcDependencyNotFound
              (DependencyNotFoundError.__init__ dep func ∅))
           (push_frame st).
Proof.
  intros Hdeps. unfold push_frame. rewrite call_with_context, Hdeps.
  simpl. rewrite lookup_empty. simpl. by rewrite lookup_empty, dom_empty_L.
Qed.

(** Callables implemented in C add no frame: the call reached through
    them is the call itself. *)
Lemma through_calls_builtin chain (m : M Value) :
  PythonFunction ∉ chain → through_calls chain m = m.
Proof.
  induction chain as [|[] chain IH]; intros Hnot; simpl; [done | |].
  - destruct Hnot. left.
  - apply IH. intros Hin. apply Hnot. by right.
Qed.

(** As soon as one function defined in Python lies in between, the
    wrapper is called from a frame without [DEP_VAR]. *)
Lemma through_calls_hides_the_context func args kwargs dep rest chain st :
  _resolve_dependencies func = dep :: rest →
  PythonFunction ∈ chain →
  through_calls chain (call (with_context func) args kwargs) st =
    Raises (ExcDependencyNotFound
              (DependencyNotFoundError.__init__ dep func ∅)) st.
Proof.
  intros Hdeps. revert st.
  induction chain as [|[] chain IH]; intros st Hin; simpl.
  - by apply elem_of_nil in Hin.
  - unfold call at 1. simpl c_code. apply in_frames_1_raises.
    destruct (decide (PythonFunction ∈ chain)) as [Hmore|Hnone].
    + by apply IH.
    + rewrite through_calls_builtin by done.
      by apply call_with_context_from_fresh_frame with rest.
  - apply IH. by apply elem_of_cons in Hin as [?|?].
Qed.

(** C2, amended.  The wrapper resolves against the dictionary held by
    the frame behind its own, the nearest Python frame on the call path,
    and reads no other frame.  Reached directly or through callables
    implemented in C only, which run without a frame of their own, the
    wrapped call is resolved against the dictionary of the frame that
    made the call, whatever the frames behind it hold.  As soon as the
    chain of intermediate calls holds a function defined in Python that
    opens no scope of its own, the wrapped call is made from a frame
    without [DEP_VAR]: whatever scopes are open further up (any state
    [st]), a function with at least one dependency fails with
    [DependencyNotFoundError] for its first dependency, with no name
    available, the function is not entered and the state is as before. *)
Theorem C2_resolution_reads_the_nearest_frame
    func args kwargs dep rest chain st caller back w :
  _resolve_dependencies func = dep :: rest →
  (PythonFunction ∈ chain →
   through_calls chain (call (with_context func) args kwargs) st =
     Raises (ExcDependencyNotFound
               (DependencyNotFoundError.__init__ dep func ∅)) st) ∧
  (PythonFunction ∉ chain →
   through_calls chain (call (with_context func) args kwargs)
                 (mkState (caller :: back) w) =
     match _wrapper_for func (default ∅ (f_locals caller !! DEP_VAR))
             (dep :: rest) kwargs with
     | inl e => Raises e (mkState (caller :: back) w)
     | inr kwargs' =>
         in_frames 1 (call func args kwargs') (mkState (caller :: back) w)
     end).
Proof.
  intros Hdeps. split.
  - intros Hin. by apply through_calls_hides_the_context with rest.
  - intros Hnot. rewrite through_calls_builtin by done.
    by rewrite call_with_context, Hdeps.
Qed.

(** ** Entering and leaving a scope *)

(** The loop of lines 43-45 never changes what its condition tests: on a
    frame that has a caller it is still running after any number of
    iterations. *)
Lemma _build_dependencies_while_spins fuel st frame dependencies :
  is_Some (get_f_back st frame) →
  _build_dependencies_while fuel st frame dependencies = None.
Proof.
  intros [back Hback]. revert dependencies.
  induction fuel as [|fuel IH]; intros dependencies; simpl; [done|].
  rewrite Hback. apply IH.
Qed.

(** On the outermost frame the loop is not entered. *)
Lemma _build_dependencies_while_outermost fuel st frame dependencies :
  get_f_back st frame = None →
  _build_dependencies_while (S fuel) st frame dependencies = Some dependencies.
Proof. intros Hback. simpl. by rewrite Hback. Qed.

Lemma context__enter___below_a_caller fuel deps frame caller back w :
  context__enter__ fuel deps (mkState (frame :: caller :: back) w) = Diverges.
Proof.
  unfold context__enter__, in_frames, context_enter, bind, _build_dependencies.
  simpl. by rewrite _build_dependencies_while_spins.
Qed.

(** In the outermost frame the new dictionary is [deps] alone: the frame's
    own [DEP_VAR], if any, is not read, and it is overwritten. *)
Lemma context__enter___outermost fuel deps frame w :
  context__enter__ (S fuel) deps (mkState [frame] w) =
    Returns tt (mkState [mkFrame (<[DEP_VAR := deps]> (f_locals frame))] w).
Proof.
  unfold context__enter__, in_frames, context_enter, bind, _build_dependencies.
  simpl. unfold dict_or, reduce. simpl. by rewrite (right_id_L ∅ (∪)).
Qed.

Lemma context__exit___frame frame back w :
  context__exit__ (mkState (frame :: back) w) =
    match f_locals frame !! DEP_VAR with
    | Some _ =>
        Returns tt (mkState (mkFrame (delete DEP_VAR (f_locals frame)) :: back) w)
    | None => Raises (ExcKeyError DEP_VAR) (mkState (frame :: back) w)
    end.
Proof.
  unfold context__exit__, in_frames, context_exit, get_local. simpl.
  by destruct (f_locals frame !! DEP_VAR).
Qed.

(** A scope opened in the outermost frame while that frame holds no
    [DEP_VAR], around a body that leaves the state alone: the frame is
    as before once the scope is left, whether the body returns or
    raises. *)
Lemma context_alone_restores {A} fuel deps (o : A + Exc) l w :
  l !! DEP_VAR = None →
  context (S fuel) deps
    (match o with inl a => ret a | inr e => raise e end)
    (mkState [mkFrame l] w) =
  match o with
  | inl a => Returns a (mkState [mkFrame l] w)
  | inr e => Raises e (mkState [mkFrame l] w)
  end.
Proof.
  intros Hfree. unfold context, bind. rewrite context__enter___outermost.
  simpl. unfold try_finally.
  destruct o as [a|e]; unfold ret, raise; rewrite context__exit___frame; simpl;
    rewrite lookup_insert_eq, delete_insert_eq; by rewrite delete_id.
Qed.

(** C4.  A [with context(...)] statement executed in a frame that has a
    caller does not complete: the loop of [_build_dependencies] is still
    running after any number of iterations, so the body, of any kind, is
    never reached. *)
Theorem C4_scope_entry_below_a_caller_diverges
    {A} fuel deps (body : M A) frame caller back w :
  context fuel deps body (mkState (frame :: caller :: back) w) = Diverges.
Proof.
  unfold context, bind. by rewrite context__enter___below_a_caller.
Qed.

(** C1.  Two scopes nested in the outermost frame, both binding [n].
    Inside the inner scope a wrapped function requiring [n] is called
    with the inner value [v2].  Leaving the inner scope removes [DEP_VAR]
    from the frame instead of putting the outer dictionary back: the
    same wrapped call then fails with [DependencyNotFoundError] and no
    name available, and leaving the outer scope raises [KeyError]. *)
Theorem C1_outer_binding_is_not_restored
    fuel1 fuel2 b1 b2 n v1 v2 fname code args kwargs w :
  let outer := <[n := v1]> b1 in
  let inner := <[n := v2]> b2 in
  let func := mkCallable fname (Some [(n, Depends)]) code in
  let st0 := mkState [mkFrame ∅] w in
  let st1 := mkState [mkFrame {[DEP_VAR := outer]}] w in
  let st2 := mkState [mkFrame {[DEP_VAR := inner]}] w in
  context__enter__ (S fuel1) outer st0 = Returns tt st1 ∧
  context__enter__ (S fuel2) inner st1 = Returns tt st2 ∧
  call (with_context func) args kwargs st2 =
    in_frames 1 (call func args (<[n := v2]> kwargs)) st2 ∧
  context__exit__ st2 = Returns tt st0 ∧
  call (with_context func) args kwargs st0 =
    Raises (ExcDependencyNotFound
              (DependencyNotFoundError.__init__ n func ∅)) st0 ∧
  context__exit__ st0 = Raises (ExcKeyError DEP_VAR) st0.
Proof.
  intros outer inner func st0 st1 st2. unfold st0, st1, st2.
  split_and!.
  - rewrite context__enter___outermost. simpl. by rewrite insert_empty.
  - rewrite context__enter___outermost. simpl. by rewrite insert_singleton_eq.
  - rewrite call_with_context. simpl. rewrite lookup_singleton_eq. simpl.
    unfold inner. by rewrite lookup_insert_eq.
  - rewrite context__exit___frame. simpl. rewrite lookup_singleton_eq.
    by rewrite delete_singleton_eq.
  - rewrite call_with_context. simpl. rewrite lookup_empty. simpl.
    by rewrite lookup_empty, dom_empty_L.
  - rewrite context__exit___frame. simpl. by rewrite lookup_empty.
Qed.

(** C6.  A scope opened in the outermost frame while an enclosing scope
    of the same frame holds the dictionary [outer].  Whether its body
    returns or raises, leaving the scope deletes [DEP_VAR]: the context
    read afterwards is empty, not [outer], and the enclosing scope then
    fails to leave with [KeyError]. *)
Theorem C6_exit_drops_the_enclosing_layer
    {A} fuel outer inner (a : A) e w :
  let before := mkState [mkFrame {[DEP_VAR := outer]}] w in
  let after := mkState [mkFrame ∅] w in
  effective_context before = outer ∧
  effective_context after = ∅ ∧
  context (S fuel) inner (ret a) before = Returns a after ∧
  context (S fuel) inner (raise (A := A) e) before = Raises e after ∧
  context (S fuel) outer (context (S fuel) inner (ret a)) after =
    Raises (ExcKeyError DEP_VAR) after.
Proof.
  intros before after. unfold before, after.
  assert (∀ (B : Type) (body : M B) l,
            context (S fuel) inner body (mkState [mkFrame l] w) =
            try_finally body context__exit__
              (mkState [mkFrame (<[DEP_VAR := inner]> l)] w)) as Hctx.
  { intros B body l. unfold context, bind.
    by rewrite context__enter___outermost. }
  split_and!.
  - unfold effective_context, get_local. simpl. by rewrite lookup_singleton_eq.
  - unfold effective_context, get_local. simpl. by rewrite lookup_empty.
  - rewrite Hctx. unfold try_finally, ret. rewrite context__exit___frame. simpl.
    rewrite lookup_insert_eq. by rewrite delete_insert_eq, delete_singleton_eq.
  - rewrite Hctx. unfold try_finally, raise. rewrite context__exit___frame. simpl.
    rewrite lookup_insert_eq. by rewrite delete_insert_eq, delete_singleton_eq.
  - unfold context at 1, bind. rewrite context__enter___outermost. simpl.
    unfold try_finally at 1. rewrite Hctx.
    unfold try_finally, ret. rewrite context__exit___frame. simpl.
    rewrite lookup_insert_eq, delete_insert_eq, insert_empty, delete_singleton_eq.
    rewrite context__exit___frame. simpl. by rewrite lookup_empty.
Qed.

(** ** Further properties of the module *)

(** A scope opened in the outermost frame: the body runs with the
    frame's [DEP_VAR] set to the scope's own bindings, and the [finally]
    clause runs after it. *)
Lemma context_outermost {A} fuel deps (body : M A) frame w :
  context (S fuel) deps body (mkState [frame] w) =
    try_finally body context__exit__
      (mkState [mkFrame (<[DEP_VAR := deps]> (f_locals frame))] w).
Proof. unfold context, bind. by rewrite context__enter___outermost. Qed.

Lemma _resolve_dependencies_with_context func :
  _resolve_dependencies (with_context func) = [].
Proof. reflexivity. Qed.

(** X1.  [_build_dependencies] collects nothing: whenever it returns,
    the frame it was given is an outermost one, the result is the empty
    dictionary, even if that frame holds [DEP_VAR], and the state is
    unchanged. *)
Theorem build_dependencies_returns_only_empty fuel frame st d st' :
  _build_dependencies fuel frame st = Returns d st' →
  d = ∅ ∧ st' = st ∧ get_f_back st frame = None.
Proof.
  unfold _build_dependencies. intros Hret.
  destruct (get_f_back st frame) as [back|] eqn:Hback.
  - rewrite _build_dependencies_while_spins in Hret; [done | by exists back].
  - destruct fuel as [|fuel]; [done|].
    rewrite _build_dependencies_while_outermost in Hret by done.
    by inversion Hret.
Qed.

(** X2.  The merge of line 46, [reduce(lambda a, b: a | b, l, {})]: a
    dictionary later in the list overrides the ones before it, and a key
    it does not bind keeps the value merged so far. *)
Theorem reduce_dict_or_later_wins (l : list (gmap string Value)) d k :
  reduce dict_or (l ++ [d]) ∅ !! k =
    match d !! k with
    | Some v => Some v
    | None => reduce dict_or l ∅ !! k
    end.
Proof.
  unfold reduce. rewrite foldl_app. simpl. unfold dict_or at 1.
  rewrite lookup_union. by destruct (d !! k), (foldl dict_or ∅ l !! k).
Qed.

(** X3.  A scope opened in the outermost frame does not inherit: with an
    enclosing scope of the same frame holding [outer], the context inside
    the new scope is [deps] alone.  A wrapped function whose first
    dependency is not bound by [deps] fails there, naming only the keys
    of [deps] as available, whatever [outer] binds; the failure leaves
    the [with] statement and the frame is left without [DEP_VAR]. *)
Theorem scope_in_outermost_frame_does_not_inherit
    fuel outer deps func args kwargs dep rest l w :
  _resolve_dependencies func = dep :: rest →
  deps !! dep = None →
  effective_context
    (mkState [mkFrame (<[DEP_VAR := deps]> (<[DEP_VAR := outer]> l))] w) = deps ∧
  context (S fuel) deps (call (with_context func) args kwargs)
          (mkState [mkFrame (<[DEP_VAR := outer]> l)] w) =
    Raises (ExcDependencyNotFound
              (DependencyNotFoundError.__init__ dep func (dom deps)))
           (mkState [mkFrame (delete DEP_VAR l)] w).
Proof.
  intros Hdeps Hmiss. split.
  - unfold effective_context, get_local. simpl. by rewrite lookup_insert_eq.
  - rewrite context_outermost. unfold try_finally.
    rewrite call_with_context, Hdeps. simpl.
    rewrite lookup_insert_eq. simpl. rewrite Hmiss.
    rewrite context__exit___frame. simpl. rewrite lookup_insert_eq.
    by rewrite !delete_insert_eq.
Qed.

(** X4.  A scope opened in the outermost frame, which held no [DEP_VAR],
    around a direct call of a wrapped function all of whose dependencies
    the scope binds.  The function is called with the scope's value for
    each dependency name and the caller's other keyword arguments; when
    its code returns or raises, leaving the frames below its own as they
    were, the [with] statement returns or raises the same and the frame
    is again without [DEP_VAR]. *)
Theorem scope_injects_into_direct_call fuel deps func args kwargs l w :
  l !! DEP_VAR = None →
  (∀ d, d ∈ _resolve_dependencies func → d ∈ dom deps) →
  ∃ kwargs',
    (∀ d, d ∈ _resolve_dependencies func → kwargs' !! d = deps !! d) ∧
    (∀ k, k ∉ _resolve_dependencies func → kwargs' !! k = kwargs !! k) ∧
    (∀ v f0 f1 w',
       c_code func args kwargs'
         (mkState [mkFrame ∅; mkFrame ∅; mkFrame (<[DEP_VAR := deps]> l)] w) =
         Returns v (mkState [f0; f1; mkFrame (<[DEP_VAR := deps]> l)] w') →
       context (S fuel) deps (call (with_context func) args kwargs)
               (mkState [mkFrame l] w) =
         Returns v (mkState [mkFrame l] w')) ∧
    (∀ e f0 f1 w',
       c_code func args kwargs'
         (mkState [mkFrame ∅; mkFrame ∅; mkFrame (<[DEP_VAR := deps]> l)] w) =
         Raises e (mkState [f0; f1; mkFrame (<[DEP_VAR := deps]> l)] w') →
       context (S fuel) deps (call (with_context func) args kwargs)
               (mkState [mkFrame l] w) =
         Raises e (mkState [mkFrame l] w')).
Proof.
  intros Hfree Hall.
  destruct (_wrapper_for_present func deps (_resolve_dependencies func) kwargs Hall)
    as (kwargs' & Hloop & Hres & Hrest).
  exists kwargs'. split_and!; [done | done | |].
  - intros v f0 f1 w' Hcode. rewrite context_outermost. unfold try_finally.
    rewrite call_with_context. simpl. rewrite lookup_insert_eq. simpl.
    rewrite Hloop. unfold in_frames, call, in_frames. simpl.
    unfold push_frame. simpl. rewrite Hcode. unfold pop_frame. simpl.
    rewrite context__exit___frame. simpl. rewrite lookup_insert_eq.
    by rewrite delete_insert_eq, delete_id.
  - intros e f0 f1 w' Hcode. rewrite context_outermost. unfold try_finally.
    rewrite call_with_context. simpl. rewrite lookup_insert_eq. simpl.
    rewrite Hloop. unfold in_frames, call, in_frames. simpl.
    unfold push_frame. simpl. rewrite Hcode. unfold pop_frame. simpl.
    rewrite context__exit___frame. simpl. rewrite lookup_insert_eq.
    by rewrite delete_insert_eq, delete_id.
Qed.

(** X5.  Leaving a scope whose frame no longer holds [DEP_VAR] raises
    [KeyError] for that name (line 59), and this replaces the body's
    result, or the exception that was leaving the body. *)
Theorem scope_exit_without_slot_raises_KeyError
    {A} fuel deps (body : M A) frame w (o : A + Exc) l' back' w' :
  l' !! DEP_VAR = None →
  body (mkState [mkFrame (<[DEP_VAR := deps]> (f_locals frame))] w) =
    match o with
    | inl a => Returns a (mkState (mkFrame l' :: back') w')
    | inr e => Raises e (mkState (mkFrame l' :: back') w')
    end →
  context (S fuel) deps body (mkState [frame] w) =
    Raises (ExcKeyError DEP_VAR) (mkState (mkFrame l' :: back') w').
Proof.
  intros Hgone Hbody. rewrite context_outermost. unfold try_finally.
  rewrite Hbody. destruct o as [a|e]; rewrite context__exit___frame; simpl;
    by rewrite Hgone.
Qed.

(** X6.  Wrapping twice hides every scope.  The outer wrapper has no
    dependency of its own, so it calls the inner wrapper from its own
    frame, which holds no [DEP_VAR]: a function with a dependency then
    fails on its first one with no name available, whatever the caller's
    frame binds. *)
Theorem wrapping_twice_hides_the_scope
    func args kwargs dep rest caller back w :
  _resolve_dependencies func = dep :: rest →
  call (with_context (with_context func)) args kwargs
       (mkState (caller :: back) w) =
    Raises (ExcDependencyNotFound
              (DependencyNotFoundError.__init__ dep func ∅))
           (mkState (caller :: back) w).
Proof.
  intros Hdeps. rewrite call_with_context_no_dependency
    by apply _resolve_dependencies_with_context.
  apply in_frames_1_raises.
  by apply call_with_context_from_fresh_frame with rest.
Qed.

(** X7.  Injection does not reach further calls.  When the body of a
    wrapped function [f], all of whose dependencies are bound, calls
    another wrapped function [g], the wrapper of [g] reads the frame of
    [f], which holds no [DEP_VAR]: if [g] has a dependency the call of
    [f] fails with [DependencyNotFoundError] for the first dependency of
    [g], with no name available. *)
Theorem injection_does_not_reach_nested_calls
    fname annots g
    (args' : list Value → gmap string Value → list Value)
    (kwargs' : list Value → gmap string Value → gmap string Value)
    args kwargs dep rest caller back w :
  let f := mkCallable fname annots
             (fun a k => call (with_context g) (args' a k) (kwargs' a k)) in
  _resolve_dependencies g = dep :: rest →
  (∀ d, d ∈ _resolve_dependencies f →
        d ∈ dom (default ∅ (f_locals caller !! DEP_VAR))) →
  call (with_context f) args kwargs (mkState (caller :: back) w) =
    Raises (ExcDependencyNotFound
              (DependencyNotFoundError.__init__ dep g ∅))
           (mkState (caller :: back) w).
Proof.
  intros f Hg Hall. rewrite call_with_context.
  destruct (_wrapper_for_present f _ (_resolve_dependencies f) kwargs Hall)
    as (kw & -> & _ & _).
  apply in_frames_1_raises. unfold call at 1. simpl c_code.
  apply in_frames_1_raises.
  by apply call_with_context_from_fresh_frame with rest.
Qed.

(** X8.  For a defined function the failure names the first marked
    parameter that the context does not bind, in the order in which
    [__annotations__] lists the parameters (ordinary parameters first,
    then positional-only ones, then the starred, keyword-only and
    double-starred ones), whether or not the return annotation is a
    marker too. *)
Theorem first_unbound_marked_parameter_is_reported
    d args kwargs caller back w pre p post :
  let source := default ∅ (f_locals caller !! DEP_VAR) in
  marked_parameters d = pre ++ p :: post →
  (∀ q, q ∈ pre → q ∈ dom source) →
  p ∉ dom source →
  call (with_context (def_function d)) args kwargs
       (mkState (caller :: back) w) =
    Raises (ExcDependencyNotFound
              (DependencyNotFoundError.__init__ p (def_function d)
                 (dom source)))
           (mkState (caller :: back) w).
Proof.
  intros source Hparams Hpre Hp. rewrite call_with_context. fold source.
  rewrite _resolve_dependencies_def, Hparams, <- app_assoc. simpl.
  by rewrite (_wrapper_for_missing _ source pre p _ kwargs Hpre Hp).
Qed.

(** X9.  A wrapped call made directly in a scope of the outermost frame,
    which held no [DEP_VAR], and missing a dependency: the failure lists
    exactly the names the scope binds, it leaves the [with] statement
    unchanged, and the frame is as it was before the scope. *)
Theorem scope_failure_lists_the_scope_names
    fuel deps func args kwargs l w pre dep post :
  l !! DEP_VAR = None →
  _resolve_dependencies func = pre ++ dep :: post →
  (∀ q, q ∈ pre → q ∈ dom deps) →
  dep ∉ dom deps →
  context (S fuel) deps (call (with_context func) args kwargs)
          (mkState [mkFrame l] w) =
    Raises (ExcDependencyNotFound
              (DependencyNotFoundError.__init__ dep func (dom deps)))
           (mkState [mkFrame l] w).
Proof.
  intros Hfree Hdeps Hpre Hdep. rewrite context_outermost. unfold try_finally.
  rewrite call_with_context, Hdeps. simpl. rewrite lookup_insert_eq. simpl.
  rewrite (_wrapper_for_missing func deps pre dep post kwargs Hpre Hdep).
  rewrite context__exit___frame. simpl. rewrite lookup_insert_eq.
  by rewrite delete_insert_eq, delete_id.
Qed.

End Model.

Arguments Returns {Value World E A}.
Arguments Raises {Value World E A}.
Arguments Diverges {Value World E A}.

(** ** The theorems at work

    Values are strings and the rest of the state is trivial.  The scope
    binds [logger] as in lines 89-90. *)

(** C3 at [greet("Kotlin")] called from a frame without any scope. *)
Lemma C3_witness :
  (∃ d, d ∈ _resolve_dependencies (greet (Value := string) (World := unit)) ∧
        d ∉ dom (default (∅ : gmap string string)
                         (f_locals (mkFrame ∅) !! DEP_VAR))) ∧
  ∃ pre dep post,
    _resolve_dependencies (greet (Value := string) (World := unit)) =
      pre ++ dep :: post ∧
    (∀ d, d ∈ pre → d ∈ dom (∅ : gmap string string)) ∧
    (dep ∉ dom (∅ : gmap string string)) ∧
    call (with_context greet) ["Kotlin"] ∅ (mkState [mkFrame ∅] tt) =
      Raises (ExcDependencyNotFound
                (DependencyNotFoundError.__init__ dep greet ∅))
             (mkState [mkFrame ∅] tt).
Proof.
  assert (∃ d, d ∈ _resolve_dependencies (greet (Value := string) (World := unit)) ∧
               d ∉ dom (default (∅ : gmap string string)
                                (f_locals (mkFrame ∅) !! DEP_VAR))) as Hmiss.
  { exists "logger". split; [by left|]. simpl. rewrite lookup_empty. simpl.
    rewrite dom_empty_L. apply not_elem_of_empty. }
  split; [exact Hmiss|].
  destruct (C3_missing_dependency_raises_before_call
              greet ["Kotlin"] ∅ (mkFrame ∅) [] tt Hmiss)
    as (pre & dep & post & Hdeps & Hpre & Hdep & Hcall & Hnone).
  simpl in Hpre, Hdep, Hcall, Hnone.
  rewrite lookup_empty in Hpre, Hdep, Hcall, Hnone. simpl in *.
  rewrite dom_empty_L in Hpre, Hdep, Hcall.
  by exists pre, dep, post.
Defined.

(** C7 at [greet("Kotlin")] called from two stacks of different depth
    whose top frames hold the same scope. *)
Lemma C7_witness :
  let scope : gmap string string := {["logger" := "print"]} in
  let st1 := mkState [mkFrame {[DEP_VAR := scope]}] tt in
  let st2 := mkState [mkFrame {[DEP_VAR := scope]}; mkFrame ∅] tt in
  effective_context st1 = effective_context st2 ∧
  ((∃ e,
      call (with_context greet) ["Kotlin"] ∅ st1 = Raises e st1 ∧
      call (with_context greet) ["Kotlin"] ∅ st2 = Raises e st2) ∨
   (∃ kwargs',
      call (with_context greet) ["Kotlin"] ∅ st1 =
        in_frames 1 (call greet ["Kotlin"] kwargs') st1 ∧
      call (with_context greet) ["Kotlin"] ∅ st2 =
        in_frames 1 (call greet ["Kotlin"] kwargs') st2)).
Proof.
  intros scope st1 st2. split; [reflexivity|].
  apply (C7_resolution_deterministic greet ["Kotlin"] ∅
           (mkFrame {[DEP_VAR := scope]}) [] tt
           (mkFrame {[DEP_VAR := scope]}) [mkFrame ∅] tt).
  reflexivity.
Defined.

(** C8 at [greet("Kotlin", logger="explicit")] inside the scope. *)
Lemma C8_witness :
  let scope : gmap string string := {["logger" := "print"]} in
  let kwargs : gmap string string := {["logger" := "explicit"]} in
  let st := mkState [mkFrame {[DEP_VAR := scope]}] tt in
  "logger" ∈ _resolve_dependencies (greet (Value := string) (World := unit)) ∧
  scope !! "logger" = Some "print" ∧
  kwargs !! "logger" = Some "explicit" ∧
  ∃ kwargs',
    call (with_context greet) ["Kotlin"] kwargs st =
      in_frames 1 (call greet ["Kotlin"] kwargs') st ∧
    kwargs' !! "logger" = Some "print".
Proof.
  intros scope kwargs st.
  assert ("logger" ∈ _resolve_dependencies (greet (Value := string) (World := unit)))
    as Hdep by (by left).
  assert (default ∅ (f_locals (mkFrame {[DEP_VAR := scope]}) !! DEP_VAR)
            !! "logger" = Some "print") as Hv.
  { simpl. rewrite lookup_singleton_eq. simpl. apply lookup_singleton_eq. }
  assert (kwargs !! "logger" = Some "explicit") as Hexplicit
    by apply lookup_singleton_eq.
  split_and!; [done | apply lookup_singleton_eq | done |].
  destruct (C8_injected_value_overrides_explicit_kwarg
              greet ["Kotlin"] kwargs (mkFrame {[DEP_VAR := scope]}) [] tt
              "logger" "print" "explicit" Hdep Hv Hexplicit)
    as [(other & Hin & Hne & _)|(kwargs' & Hcall & Hlook & _)].
  - exfalso. apply Hne. by apply list_elem_of_singleton in Hin.
  - by exists kwargs'.
Defined.

(** C9 at [greet("Kotlin")] called without a scope inside
    [try: ... except KeyError]. *)
Lemma C9_witness :
  let st : State (Value := string) := mkState [mkFrame ∅] tt in
  (∃ d, d ∈ _resolve_dependencies (greet (Value := string) (World := unit)) ∧
        d ∉ dom (default (∅ : gmap string string)
                         (f_locals (mkFrame ∅) !! DEP_VAR))) ∧
  try_except (call (with_context greet) ["Kotlin"] ∅) KeyError_cls
             (fun _ => ret "caught") st = Returns "caught" st.
Proof.
  intros st.
  assert (∃ d, d ∈ _resolve_dependencies (greet (Value := string) (World := unit)) ∧
               d ∉ dom (default (∅ : gmap string string)
                                (f_locals (mkFrame ∅) !! DEP_VAR))) as Hmiss.
  { exists "logger". split; [by left|]. simpl. rewrite lookup_empty. simpl.
    rewrite dom_empty_L. apply not_elem_of_empty. }
  split; [exact Hmiss|].
  destruct (C9_resolution_failure_is_caught_as_KeyError
              greet ["Kotlin"] ∅ (mkFrame ∅) [] tt (fun _ => ret "caught") Hmiss)
    as (_ & _ & e & _ & _ & _ & _ & _ & _ & Hcatch).
  exact Hcatch.
Defined.

(** C10 at a function declared [def make() -> Depends], called without
    a scope. *)
Lemma C10_witness :
  let d : FunctionDef (Value := string) (World := unit) :=
    returns_Depends_def "made" in
  let st := mkState [mkFrame ∅] tt in
  def_returns d = Some Depends ∧
  "return" ∈ _resolve_dependencies (def_function d) ∧
  ∃ dep,
    call (with_context (def_function d)) [] ∅ st =
      Raises (ExcDependencyNotFound
                (DependencyNotFoundError.__init__ dep (def_function d) ∅)) st.
Proof.
  intros d st. split; [reflexivity|].
  destruct (C10_return_annotation_is_a_dependency
              d [] ∅ (mkFrame ∅) [] tt eq_refl)
    as (_ & Hin & Hraise & _).
  split; [exact Hin|].
  destruct Hraise as (dep & _ & Hcall).
  { simpl. rewrite lookup_empty. simpl. rewrite dom_empty_L.
    apply not_elem_of_empty. }
  exists dep. simpl in Hcall. rewrite lookup_empty in Hcall. simpl in Hcall.
  rewrite dom_empty_L in Hcall. exact Hcall.
Defined.



(** C2, amended, at [greet("Kotlin")] called in the scope of line 89:
    through [map] and then a plain function it fails, through [map]
    alone it is given the scope's logger. *)
Lemma C2_witness :
  let scope : gmap string string := {["logger" := "print"]} in
  let st := mkState [mkFrame {[DEP_VAR := scope]}] tt in
  let wrapped_call := call (with_context greet) ["Kotlin"] ∅ in
  _resolve_dependencies (greet (Value := string) (World := unit)) =
    ["logger"] ∧
  through_calls [BuiltinCallable; PythonFunction] wrapped_call st =
    Raises (ExcDependencyNotFound
              (DependencyNotFoundError.__init__ "logger" greet ∅)) st ∧
  through_calls [BuiltinCallable] wrapped_call st =
    in_frames 1 (call greet ["Kotlin"] {["logger" := "print"]}) st.
Proof.
  intros scope st wrapped_call. split; [reflexivity|].
  split.
  - apply (C2_resolution_reads_the_nearest_frame
             greet ["Kotlin"] ∅ "logger" [] [BuiltinCallable; PythonFunction]
             st (mkFrame ∅) [] tt eq_refl).
    right. left.
  - destruct (C2_resolution_reads_the_nearest_frame
                greet ["Kotlin"] ∅ "logger" [] [BuiltinCallable]
                st (mkFrame {[DEP_VAR := scope]}) [] tt eq_refl)
      as [_ Hdirect].
    unfold wrapped_call, st. rewrite Hdirect.
    + simpl. rewrite lookup_singleton_eq. simpl. unfold scope.
      rewrite lookup_singleton_eq. by rewrite insert_empty.
    + intros Hin. apply list_elem_of_singleton in Hin. discriminate.
Defined.

(** C2 as stated fails at the scope of line 89 opened in the outermost
    frame: called in the scope body, wrapped [greet] is given the scope's
    logger, but called there through one plain function defined in
    Python it raises [DependencyNotFoundError] and sees no name at
    all. *)
Lemma C2_counterexample :
  let scope : gmap string string := {["logger" := "print"]} in
  let st := mkState [mkFrame ∅] tt in
  let wrapped_call := call (with_context greet) ["Kotlin"] ∅ in
  context 1 scope wrapped_call st = Returns "print" st ∧
  context 1 scope (through_calls [PythonFunction] wrapped_call) st =
    Raises (ExcDependencyNotFound
              (DependencyNotFoundError.__init__ "logger" greet ∅)) st.
Proof.
  intros scope st wrapped_call. unfold st, wrapped_call.
  assert (∀ (body : M string),
            context 1 scope body (mkState [mkFrame ∅] tt) =
            try_finally body context__exit__
              (mkState [mkFrame {[DEP_VAR := scope]}] tt)) as Hctx.
  { intros body. unfold context, bind.
    rewrite context__enter___outermost. simpl. by rewrite insert_empty. }
  split.
  - rewrite Hctx. unfold try_finally. rewrite call_with_context. simpl.
    rewrite lookup_singleton_eq. simpl. unfold scope at 1.
    rewrite lookup_singleton_eq. simpl.
    unfold in_frames, call, in_frames. simpl. rewrite lookup_insert_eq.
    unfold ret. rewrite !pop_push_frame, context__exit___frame. simpl.
    by rewrite lookup_singleton_eq, delete_singleton_eq.
  - rewrite Hctx. unfold try_finally.
    rewrite (through_calls_hides_the_context
               greet ["Kotlin"] ∅ "logger" [] [PythonFunction] _ eq_refl)
      by left.
    rewrite context__exit___frame. simpl.
    by rewrite lookup_singleton_eq, delete_singleton_eq.
Qed.

(** X1 at a one-frame stack whose frame holds a dictionary: the result
    is empty all the same. *)
Lemma build_dependencies_returns_only_empty_witness :
  let st : State (Value := string) (World := unit) :=
    mkState [mkFrame {[DEP_VAR := {["logger" := "print"]}]}] tt in
  _build_dependencies 1 0 st = Returns ∅ st ∧
  get_f_back st 0 = None.
Proof.
  intros st.
  assert (_build_dependencies 1 0 st = Returns ∅ st) as Hret by reflexivity.
  split; [exact Hret|].
  apply (build_dependencies_returns_only_empty 1 0 st ∅ st Hret).
Defined.

(** X3 at a scope binding [verbose] opened inside one binding [logger]:
    [greet] does not get the logger. *)
Lemma scope_in_outermost_frame_does_not_inherit_witness :
  let outer : gmap string string := {["logger" := "print"]} in
  let deps : gmap string string := {["verbose" := "yes"]} in
  _resolve_dependencies (greet (Value := string) (World := unit)) =
    ["logger"] ∧
  deps !! "logger" = None ∧
  context 1 deps (call (with_context greet) ["Kotlin"] ∅)
          (mkState [mkFrame (<[DEP_VAR := outer]> ∅)] tt) =
    Raises (ExcDependencyNotFound
              (DependencyNotFoundError.__init__ "logger" greet (dom deps)))
           (mkState [mkFrame (delete DEP_VAR ∅)] tt).
Proof.
  intros outer deps.
  assert (deps !! "logger" = None) as Hmiss by (by apply lookup_singleton_ne).
  split_and!; [reflexivity | exact Hmiss |].
  apply (scope_in_outermost_frame_does_not_inherit
           0 outer deps greet ["Kotlin"] ∅ "logger" [] ∅ tt eq_refl Hmiss).
Defined.

(** X4 at lines 89-90: [greet("Kotlin")] called in a scope binding
    [logger] returns that logger and the frame is restored. *)
Lemma scope_injects_into_direct_call_witness :
  let deps : gmap string string := {["logger" := "print"]} in
  (∅ : gmap string (gmap string string)) !! DEP_VAR = None ∧
  (∀ d, d ∈ _resolve_dependencies (greet (Value := string) (World := unit)) →
        d ∈ dom deps) ∧
  context 1 deps (call (with_context greet) ["Kotlin"] ∅)
          (mkState [mkFrame ∅] tt) =
    Returns "print" (mkState [mkFrame ∅] tt).
Proof.
  intros deps.
  assert (∀ d, d ∈ _resolve_dependencies (greet (Value := string) (World := unit)) →
               d ∈ dom deps) as Hall.
  { intros d Hd. apply list_elem_of_singleton in Hd as ->.
    apply elem_of_dom. exists "print". apply lookup_singleton_eq. }
  split_and!; [apply lookup_empty | exact Hall |].
  destruct (scope_injects_into_direct_call
              0 deps greet ["Kotlin"] ∅ ∅ tt (lookup_empty _) Hall)
    as (kwargs' & Hres & _ & Hreturns & _).
  apply (Hreturns "print" (mkFrame ∅) (mkFrame ∅) tt).
  simpl. rewrite (Hres "logger") by (by left).
  unfold deps. by rewrite lookup_singleton_eq.
Defined.

(** X5 at two scopes nested in the outermost frame: the inner one takes
    the slot away, so the outer one fails to leave. *)
Lemma scope_exit_without_slot_raises_KeyError_witness :
  let outer : gmap string string := {["a" := "1"]} in
  let inner : gmap string string := {["a" := "2"]} in
  (∅ : gmap string (gmap string string)) !! DEP_VAR = None ∧
  context 1 outer (context 1 inner (ret "done")) (mkState [mkFrame ∅] tt) =
    Raises (ExcKeyError DEP_VAR) (mkState [mkFrame ∅] tt).
Proof.
  intros outer inner. split; [apply lookup_empty|].
  apply (scope_exit_without_slot_raises_KeyError
           0 outer (context 1 inner (ret "done")) (mkFrame ∅) tt
           (inl "done") ∅ [] tt (lookup_empty _)).
  simpl. rewrite context_outermost. unfold try_finally, ret.
  rewrite context__exit___frame. simpl. rewrite lookup_insert_eq.
  by rewrite !delete_insert_eq, delete_empty.
Defined.

(** X6 at [greet] wrapped twice and called in the scope of line 89. *)
Lemma wrapping_twice_hides_the_scope_witness :
  let scope : gmap string string := {["logger" := "print"]} in
  let st := mkState [mkFrame {[DEP_VAR := scope]}] tt in
  _resolve_dependencies (greet (Value := string) (World := unit)) =
    ["logger"] ∧
  call (with_context (with_context greet)) ["Kotlin"] ∅ st =
    Raises (ExcDependencyNotFound
              (DependencyNotFoundError.__init__ "logger" greet ∅)) st.
Proof.
  intros scope st. split; [reflexivity|].
  apply (wrapping_twice_hides_the_scope
           greet ["Kotlin"] ∅ "logger" [] (mkFrame {[DEP_VAR := scope]}) [] tt
           eq_refl).
Defined.

(** X7 at a wrapped function without annotations whose body calls
    wrapped [greet], called in the scope of line 89. *)
Lemma injection_does_not_reach_nested_calls_witness :
  let scope : gmap string string := {["logger" := "print"]} in
  let st := mkState [mkFrame {[DEP_VAR := scope]}] tt in
  let f := mkCallable "relay" None
             (fun a k => call (with_context greet) a k) in
  _resolve_dependencies (greet (Value := string) (World := unit)) =
    ["logger"] ∧
  call (with_context f) ["Kotlin"] ∅ st =
    Raises (ExcDependencyNotFound
              (DependencyNotFoundError.__init__ "logger" greet ∅)) st.
Proof.
  intros scope st f. split; [reflexivity|].
  apply (injection_does_not_reach_nested_calls
           "relay" None greet (fun a _ => a) (fun _ k => k)
           ["Kotlin"] ∅ "logger" [] (mkFrame {[DEP_VAR := scope]}) [] tt
           eq_refl).
  intros d Hd. by apply elem_of_nil in Hd.
Defined.

(** X8 at [def pair(a: Depends, /, c: Depends)] called without a
    scope: the name reported is [c], the ordinary parameter, although
    [a] is declared first. *)
Lemma first_unbound_marked_parameter_is_reported_witness :
  let st : State (Value := string) (World := unit) :=
    mkState [mkFrame ∅] tt in
  marked_parameters (posonly_def (Value := string) (World := unit)) =
    [] ++ "c" :: ["a"] ∧
  call (with_context (def_function posonly_def)) [] ∅ st =
    Raises (ExcDependencyNotFound
              (DependencyNotFoundError.__init__ "c" (def_function posonly_def)
                 (dom (default (∅ : gmap string string)
                               (f_locals (mkFrame ∅) !! DEP_VAR))))) st.
Proof.
  intros st. split; [reflexivity|].
  apply (first_unbound_marked_parameter_is_reported
           posonly_def [] ∅ (mkFrame ∅) [] tt [] "c" ["a"] eq_refl).
  - intros q Hq. by apply elem_of_nil in Hq.
  - simpl. rewrite lookup_empty. simpl. rewrite dom_empty_L.
    apply not_elem_of_empty.
Defined.

(** X9 at [greet("Kotlin")] called in a scope that binds only
    [verbose]. *)
Lemma scope_failure_lists_the_scope_names_witness :
  let deps : gmap string string := {["verbose" := "yes"]} in
  (∅ : gmap string (gmap string string)) !! DEP_VAR = None ∧
  _resolve_dependencies (greet (Value := string) (World := unit)) =
    [] ++ "logger" :: [] ∧
  context 1 deps (call (with_context greet) ["Kotlin"] ∅)
          (mkState [mkFrame ∅] tt) =
    Raises (ExcDependencyNotFound
              (DependencyNotFoundError.__init__ "logger" greet (dom deps)))
           (mkState [mkFrame ∅] tt).
Proof.
  intros deps. split_and!; [apply lookup_empty | reflexivity |].
  apply (scope_failure_lists_the_scope_names
           0 deps greet ["Kotlin"] ∅ ∅ tt [] "logger" []
           (lookup_empty _) eq_refl).
  - intros q Hq. by apply elem_of_nil in Hq.
  - unfold deps. rewrite dom_singleton_L. by apply not_elem_of_singleton.
Defined.
